(** * devpod [cmd/ssh.go]: the readiness wait, the container tunnel and the
    credentials relay of the [ssh] command.

    The Go functions of [cmd/ssh.go] are embedded as Rocq functions in a
    state monad.  The state holds a clock and the trace of every call the
    code makes to a collaborator (workspace client, logger, [os], [devssh],
    [agent], [tunnel]); what the collaborators answer is given by records of
    replies, so that every function can be run on a scripted client. *)

From Stdlib Require Import ZArith List String Ascii Bool Arith Lia.
Import ListNotations.

Open Scope string_scope.

(* ================================================================== *)
(** ** Strings *)

Module Strings.

(** [strings.HasPrefix s prefix]. *)
Fixpoint HasPrefix (s prefix : string) {struct prefix} : bool :=
  match prefix with
  | EmptyString => true
  | String p prefix' =>
      match s with
      | EmptyString => false
      | String c s' => Ascii.eqb c p && HasPrefix s' prefix'
      end
  end.

(** [strings.Contains s substr]: [substr] occurs in [s] at some offset. *)
Fixpoint Contains (s substr : string) : bool :=
  HasPrefix s substr ||
  match s with
  | EmptyString => false
  | String _ s' => Contains s' substr
  end.

(** [strings.IndexByte s c >= 0]. *)
Fixpoint HasByte (s : string) (c : ascii) : bool :=
  match s with
  | EmptyString => false
  | String x s' => Ascii.eqb x c || HasByte s' c
  end.

End Strings.

(* ================================================================== *)
(** ** Go error values *)

Module Errors.

(** The error values [ssh.go] builds or passes on: a plain message
    ([fmt.Errorf] without [%w], [errors.New]) and a message put in front
    of a cause ([errors.Wrap] of github.com/pkg/errors). *)
Inductive error : Type :=
| errorString (s : string)
| withMessage (cause : error) (msg : string).

(** The [Error()] method. *)
Fixpoint Error (e : error) : string :=
  match e with
  | errorString s => s
  | withMessage cause msg => msg ++ ": " ++ Error cause
  end.

(** [errors.Wrap(err, message)]; [nil] stays [nil]. *)
Definition Wrap (err : option error) (message : string) : option error :=
  match err with
  | None => None
  | Some e => Some (withMessage e message)
  end.

(** [errors.Cause]. *)
Fixpoint Cause (e : error) : error :=
  match e with
  | errorString _ => e
  | withMessage cause _ => Cause cause
  end.

End Errors.
Export Errors.

(* ================================================================== *)
(** ** [fmt] *)

Module Fmt.

(** Operands of the formatting calls in [ssh.go]: strings (also the
    string-kinded [client2.Status]) and errors. *)
Inductive Arg : Type :=
| ArgString (s : string)
| ArgError (e : option error).

Definition show (a : Arg) : string :=
  match a with
  | ArgString s => s
  | ArgError (Some e) => Error e
  | ArgError None => "<nil>"
  end.

(** [fmt.Sprintf] for the verbs that occur in [ssh.go]: [%s] and [%v]
    print the operand, [%%] a percent sign; a verb without operand prints
    Go's [%!v(MISSING)] and a trailing percent sign [%!(NOVERB)].  Other
    verbs and surplus operands do not occur in the file; here they print
    the operand, respectively nothing. *)
Fixpoint Sprintf (format : string) (a : list Arg) : string :=
  match format with
  | EmptyString => EmptyString
  | String c rest =>
      if Ascii.eqb c "%" then
        match rest with
        | EmptyString => "%!(NOVERB)"
        | String verb rest' =>
            if Ascii.eqb verb "%" then String "%" (Sprintf rest' a)
            else
              match a with
              | x :: a' => show x ++ Sprintf rest' a'
              | [] => "%!" ++ String verb "(MISSING)" ++ Sprintf rest' []
              end
        end
      else String c (Sprintf rest a)
  end.

(** [fmt.Errorf] (no [%w] in this file). *)
Definition Errorf (format : string) (a : list Arg) : option error :=
  Some (errorString (Sprintf format a)).

End Fmt.
Export Fmt.

(* ================================================================== *)
(** ** The world: clock, trace and the monad of effects *)

Inductive Level : Type := DebugLevel | InfoLevel | ErrorLevel.

(** One constructor per call that leaves [ssh.go]. *)
Inductive Event : Type :=
| EvStatus                                  (* client.Status *)
| EvStart                                   (* client.Start *)
| EvCreate                                  (* client.Create *)
| EvSleep (d : Z)                           (* time.Sleep *)
| EvLog (l : Level) (msg : string)          (* log.Debugf / Infof / Errorf *)
| EvGetToken                                (* token.GetDevPodToken *)
| EvAgentInfo                               (* client.AgentInfo *)
| EvPipe                                    (* os.Pipe *)
| EvClose (what : string)                   (* Close of a pipe end or log writer *)
| EvCancel                                  (* cancel of the derived context *)
| EvGo (command : string)                   (* go func: devssh.Run of the helper *)
| EvRunTunnelServer (git docker : bool)     (* agent.RunTunnelServer *)
| EvSSHRun (command : string)               (* devssh.Run of the tunnel command *)
| EvGetPrivateKey                           (* devssh.GetDevPodPrivateKeyRaw *)
| EvStartSSHSession (user command : string) (* machine.StartSSHSession *)
| EvTunnelRun (inner : bool)                (* ContainerTunnel.Run; inner handler given? *)
| EvConfigureSSH (user : string).           (* devssh.ConfigureSSHConfig *)

(** [now] in nanoseconds; [trace] newest first. *)
Record State : Type := mkState { now : Z; trace : list Event }.

Definition Second : Z := 1000000000.

(** A Go call returns, blocks for ever on a channel or a collaborator, or
    (in this model only) is cut off when the fuel of a loop is used up. *)
Inductive Outcome (A : Type) : Type :=
| Returns (a : A)
| Blocks
| OutOfFuel.
Arguments Returns {A} a.
Arguments Blocks {A}.
Arguments OutOfFuel {A}.

Definition M (A : Type) : Type := State -> Outcome A * State.

Definition ret {A} (a : A) : M A := fun s => (Returns a, s).

Definition bind {A B} (m : M A) (f : A -> M B) : M B :=
  fun s =>
    match m s with
    | (Returns a, s') => f a s'
    | (Blocks, s') => (Blocks, s')
    | (OutOfFuel, s') => (OutOfFuel, s')
    end.

Declare Scope go_scope.
Delimit Scope go_scope with go.
Notation "x <- m ;; k" := (bind m (fun x => k))
  (at level 61, m at next level, right associativity) : go_scope.
Notation "m ;;; k" := (bind m (fun _ => k))
  (at level 61, right associativity) : go_scope.
Open Scope go_scope.

Definition emit (e : Event) : M unit :=
  fun s => (Returns tt, mkState (now s) (e :: trace s)).

Definition block {A} : M A := fun s => (Blocks, s).
Definition outOfFuel {A} : M A := fun s => (OutOfFuel, s).

(** [defer cleanup] around [body]: the clean-up runs when the body returns. *)
Definition defer {A} (cleanup : M unit) (body : M A) : M A :=
  fun s =>
    match body s with
    | (Returns a, s') => (Returns a, snd (cleanup s'))
    | other => other
    end.

(** Number of events of a kind in a trace. *)
Definition calls (p : Event -> bool) (tr : list Event) : nat :=
  List.length (List.filter p tr).

Definition isStatus (e : Event) : bool := match e with EvStatus => true | _ => false end.
Definition isStart (e : Event) : bool := match e with EvStart => true | _ => false end.
Definition isCreate (e : Event) : bool := match e with EvCreate => true | _ => false end.
Definition isPipe (e : Event) : bool := match e with EvPipe => true | _ => false end.
Definition isSpawn (e : Event) : bool :=
  match e with EvPipe | EvGo _ | EvRunTunnelServer _ _ => true | _ => false end.

Definition statusCalls (s : State) : nat := calls isStatus (trace s).
Definition startCalls (s : State) : nat := calls isStart (trace s).
Definition createCalls (s : State) : nat := calls isCreate (trace s).

(** [time] *)
Definition Now : M Z := fun s => (Returns (now s), s).
Definition Since (t : Z) : M Z := fun s => (Returns (now s - t)%Z, s).
Definition Sleep (d : Z) : M unit :=
  fun s => (Returns tt, mkState (now s + d)%Z (EvSleep d :: trace s)).

(** [log.Logger] *)
Definition Logf (l : Level) (format : string) (a : list Arg) : M unit :=
  emit (EvLog l (Sprintf format a)).
Definition Infof := Logf InfoLevel.
Definition Debugf := Logf DebugLevel.
Definition LogErrorf := Logf ErrorLevel.

(* ================================================================== *)
(** ** [pkg/client]: the workspace client *)

Module client2.

(** Modelled from the spec: the status type and its four constants are
    declared in [pkg/client], outside [cmd/ssh.go]; the code compares
    statuses with [==] and prints them with [%s], so a status is a
    string, and the spec names the values NotFound, Stopped, Busy and
    Running. *)
Definition Status : Type := string.
Definition StatusRunning : Status := "Running".
Definition StatusBusy : Status := "Busy".
Definition StatusStopped : Status := "Stopped".
Definition StatusNotFound : Status := "NotFound".

(** A scripted [WorkspaceClient]: the answer of the k-th call of each
    method (k counts from 0), how long the k-th status query takes, and
    the values of the accessors. *)
Record WorkspaceClient : Type := {
  statusReply : nat -> Status * option error;
  statusLatency : nat -> Z;
  startReply : nat -> option error;
  createReply : nat -> option error;
  agentInfoReply : string * option error;
  agentPath : string;
  ideName : string
}.

(** [client.Status(ctx, StatusOptions{})] *)
Definition Status_ (client : WorkspaceClient) : M (Status * option error) :=
  fun s =>
    let k := statusCalls s in
    (Returns (statusReply client k),
     mkState (now s + statusLatency client k)%Z (EvStatus :: trace s)).

(** [client.Start(ctx, StartOptions{})] *)
Definition Start (client : WorkspaceClient) : M (option error) :=
  fun s => (Returns (startReply client (startCalls s)),
            mkState (now s) (EvStart :: trace s)).

(** [client.Create(ctx, CreateOptions{})] *)
Definition Create (client : WorkspaceClient) : M (option error) :=
  fun s => (Returns (createReply client (createCalls s)),
            mkState (now s) (EvCreate :: trace s)).

(** [client.AgentInfo()]; the middle result is not used by [ssh.go]. *)
Definition AgentInfo (client : WorkspaceClient) : M (string * option error) :=
  emit EvAgentInfo ;;; ret (agentInfoReply client).

End client2.
Import client2.

(* ================================================================== *)
(** ** [startWait] *)

(** How one pass through the body of the [for] loop of [startWait] ends:
    [continue], a [return] inside the [if] chain, or falling out of the
    chain onto the [return nil] that closes the body. *)
Inductive Flow : Type :=
| Continue (startWaiting : Z)
| Return (err : option error)
| FallThrough.

(** The [if]/[else if] chain of lines 82-114. *)
Definition startWait_body (client : WorkspaceClient) (create : bool)
    (startWaiting : Z) : M Flow :=
  r <- Status_ client ;;
  let '(instanceStatus, err) := r in
  match err with
  | Some e => ret (Return (Some e))
  | None =>
      if (instanceStatus =? StatusBusy)%string then
        waited <- Since startWaiting ;;
        startWaiting' <-
          (if (waited >? Second * 10)%Z then
             Infof "Waiting for workspace to come up..." [] ;;;
             Debugf "Got status %s, expected: Running" [ArgString instanceStatus] ;;;
             Now
           else ret startWaiting) ;;
        Sleep (Second * 2) ;;;
        ret (Continue startWaiting')
      else if (instanceStatus =? StatusStopped)%string then
        if create then
          err <- Start client ;;
          match err with
          | Some _ => ret (Return (Wrap err "start workspace"))
          | None => ret FallThrough
          end
        else ret (Return (Errorf "workspace is stopped" []))
      else if (instanceStatus =? StatusNotFound)%string then
        if create then
          err <- Create client ;;
          match err with
          | Some _ => ret (Return err)
          | None => ret FallThrough
          end
        else ret (Return (Errorf "workspace wasn't found" []))
      else ret FallThrough
  end.

(** The [for] loop: [fuel] bounds the number of passes. *)
Fixpoint startWait_loop (fuel : nat) (client : WorkspaceClient) (create : bool)
    (startWaiting : Z) : M (option error) :=
  match fuel with
  | O => outOfFuel
  | S fuel' =>
      flow <- startWait_body client create startWaiting ;;
      match flow with
      | Continue startWaiting' => startWait_loop fuel' client create startWaiting'
      | Return err => ret err
      | FallThrough => ret None
      end
  end.

Definition startWait (fuel : nat) (client : WorkspaceClient) (create : bool)
    : M (option error) :=
  startWaiting <- Now ;;
  startWait_loop fuel client create startWaiting.

(** A client scripted by a list of statuses; past the end of the list the
    workspace stays busy.  [Start] and [Create] answer [start] and
    [create]. *)
Definition scripted (statuses : list Status) (start create : option error)
    : WorkspaceClient :=
  {| statusReply := fun k => (nth k statuses StatusBusy, None);
     statusLatency := fun _ => 0%Z;
     startReply := fun _ => start;
     createReply := fun _ => create;
     agentInfoReply := ("{}", None);
     agentPath := "/tmp/devpod";
     ideName := "vscode" |}.

Definition init : State := mkState 0 [].

(* ================================================================== *)
(** ** The command and its other collaborators *)

(** [SSHCmd]; of the embedded [*flags.GlobalFlags] only [Debug] is read. *)
Record SSHCmd : Type := {
  Debug : bool;
  Stdio : bool;
  JumpContainer : bool;
  Configure : bool;
  Command : string;
  User : string
}.

(** [context.Context]: all the code asks of it is whether [Done()] ever
    fires. *)
Record Context : Type := { cancelled : bool }.

(** [tunnel.Handler] (the [*ssh.Client] operand is opaque and left out). *)
Definition Handler : Type := Context -> M (option error).

(** What lies outside [cmd/ssh.go]: two constants of other packages, which
    the functions below take as they are, and the answers of the calls into
    [token], [os], [devssh], [agent], [machine] and [tunnel]. *)
Record Env : Type := {
  ContainerDevPodHelperLocation : string;       (* agent. *)
  IDEVSCode : string;                           (* config. *)
  tokenReply : string * option error;           (* token.GetDevPodToken *)
  pipeReply : nat -> option error;              (* k-th os.Pipe *)
  sshRunReply : string -> Outcome (option error);       (* devssh.Run *)
  tunnelServerReply : bool -> bool -> Outcome (option error);
                                                (* agent.RunTunnelServer *)
  privateKeyReply : string * option error;      (* devssh.GetDevPodPrivateKeyRaw *)
  startSSHSession : string -> string -> string -> M (option error)
                    -> M (option error);        (* machine.StartSSHSession *)
  containerTunnelRun : Context -> Handler -> option Handler
                       -> M (option error);     (* ContainerTunnel.Run *)
  configureSSHConfigReply : string -> option error
                                                (* devssh.ConfigureSSHConfig *)
}.

Definition await {A} (o : Outcome A) : M A := fun s => (o, s).

Definition GetDevPodToken (env : Env) : M (string * option error) :=
  emit EvGetToken ;;; ret (tokenReply env).

Definition Pipe (env : Env) : M (option error) :=
  fun s => (Returns (pipeReply env (calls isPipe (trace s))),
            mkState (now s) (EvPipe :: trace s)).

Definition devssh_Run (env : Env) (command : string) : M (option error) :=
  emit (EvSSHRun command) ;;; await (sshRunReply env command).

Definition RunTunnelServer (env : Env) (git docker : bool) : M (option error) :=
  emit (EvRunTunnelServer git docker) ;;; await (tunnelServerReply env git docker).

Definition GetDevPodPrivateKeyRaw (env : Env) : M (string * option error) :=
  emit EvGetPrivateKey ;;; ret (privateKeyReply env).

Definition StartSSHSession (env : Env) (privateKey user command : string)
    (exec : M (option error)) : M (option error) :=
  emit (EvStartSSHSession user command) ;;;
  startSSHSession env privateKey user command exec.

Definition ContainerTunnel_Run (env : Env) (ctx : Context) (outer : Handler)
    (inner : option Handler) : M (option error) :=
  emit (EvTunnelRun (match inner with Some _ => true | None => false end)) ;;;
  containerTunnelRun env ctx outer inner.

(** [<-ctx.Done()] *)
Definition awaitDone (ctx : Context) : M unit :=
  if cancelled ctx then ret tt else block.

(* ================================================================== *)
(** ** [runCredentialsServer] *)

(** Lines 209-215: the command the goroutine hands to [devssh.Run]. *)
Definition credentialsServerCommand (env : Env) (user : string)
    (gitCredentials dockerCredentials : bool) : string :=
  let command :=
    Sprintf "%s agent container credentials-server --user '%s'"
            [ArgString (ContainerDevPodHelperLocation env); ArgString user] in
  let command :=
    if gitCredentials then command ++ " --configure-git-helper" else command in
  let command :=
    if dockerCredentials then command ++ " --configure-docker-helper" else command in
  command.

(** The goroutine of lines 204-218 is represented by the event of its
    launch, which carries the command it runs, and by the value it sends on
    [errChan], which the function receives last. *)
Definition runCredentialsServer (env : Env) (ctx : Context) (user : string)
    (gitCredentials dockerCredentials : bool) : M (option error) :=
  if negb gitCredentials && negb dockerCredentials then ret None
  else
    err <- Pipe env ;;
    match err with
    | Some _ => ret err
    | None =>
        defer (emit (EvClose "stdoutWriter"))
          (err <- Pipe env ;;
           match err with
           | Some _ => ret err
           | None =>
               defer (emit (EvClose "stdinWriter"))
                 (defer (emit EvCancel)
                    (let command :=
                       credentialsServerCommand env user gitCredentials
                                                dockerCredentials in
                     emit (EvGo command) ;;;
                     err <- RunTunnelServer env gitCredentials dockerCredentials ;;
                     match err with
                     | Some _ => ret (Wrap err "run tunnel server")
                     | None => await (sshRunReply env command)
                     end))
           end)
    end.

(* ================================================================== *)
(** ** [jumpContainer], [Run], [configureSSH] *)

(** Lines 139-151: the handler of the credentials relay, or [nil]. *)
Definition runInContainer (env : Env) (cmd : SSHCmd) (client : WorkspaceClient)
    : option Handler :=
  if negb (User cmd =? "")%string then
    let gitCredentials := negb (ideName client =? IDEVSCode env)%string in
    Some (fun ctx =>
            err <- runCredentialsServer env ctx (User cmd) gitCredentials true ;;
            match err with
            | Some _ =>
                LogErrorf "Error running credential server: %v" [ArgError err]
            | None => ret tt
            end ;;;
            awaitDone ctx ;;;
            ret None)
  else None.

(** Lines 159-165: the command of the outer tunnel. *)
Definition outerTunnelCommand (agentPath tok workspaceInfo : string)
    (debug : bool) (user : string) : string :=
  let command :=
    Sprintf "%s agent container-tunnel --start-container --track-activity --token '%s' --workspace-info '%s'"
            [ArgString agentPath; ArgString tok; ArgString workspaceInfo] in
  let command := if debug then command ++ " --debug" else command in
  let command :=
    if negb (user =? "")%string
    then command ++ Sprintf " --user='%s'" [ArgString user]
    else command in
  command.

(** Lines 154-178: the handler run over the connection to the container. *)
Definition outerHandler (env : Env) (cmd : SSHCmd) (client : WorkspaceClient)
    (tok workspaceInfo : string) : Handler :=
  fun ctx =>
    defer (emit (EvClose "writer"))
      (Debugf "Run outer container tunnel" [] ;;;
       let command :=
         outerTunnelCommand (agentPath client) tok workspaceInfo
                            (Debug cmd) (User cmd) in
       if Stdio cmd then devssh_Run env command
       else
         r <- GetDevPodPrivateKeyRaw env ;;
         let '(privateKey, err) := r in
         match err with
         | Some _ => ret err
         | None =>
             StartSSHSession env privateKey (User cmd) (Command cmd)
                             (devssh_Run env command)
         end).

Definition jumpContainer (fuel : nat) (env : Env) (cmd : SSHCmd) (ctx : Context)
    (client : WorkspaceClient) : M (option error) :=
  err <- startWait fuel client false ;;
  match err with
  | Some _ => ret err
  | None =>
      r <- GetDevPodToken env ;;
      let '(tok, err) := r in
      match err with
      | Some _ => ret err
      | None =>
          r <- AgentInfo client ;;
          let '(workspaceInfo, err) := r in
          match err with
          | Some _ => ret err
          | None =>
              ContainerTunnel_Run env ctx
                (outerHandler env cmd client tok workspaceInfo)
                (runInContainer env cmd client)
          end
      end
  end.

Definition configureSSH (env : Env) (client : WorkspaceClient) (user : string)
    : M (option error) :=
  emit (EvConfigureSSH user) ;;;
  match configureSSHConfigReply env user with
  | Some e => ret (Some e)
  | None => ret None
  end.

Definition Run (fuel : nat) (env : Env) (cmd : SSHCmd) (ctx : Context)
    (client : WorkspaceClient) : M (option error) :=
  if Configure cmd then configureSSH env client "root"
  else jumpContainer fuel env cmd ctx client.

(** A [ContainerTunnel.Run] for scripted runs: the relay handler, when
    there is one, then the handler of the session. *)
Definition sequentialTunnel : Context -> Handler -> option Handler
                              -> M (option error) :=
  fun ctx outer inner =>
    match inner with
    | Some h => h ctx ;;; outer ctx
    | None => outer ctx
    end.

(** Collaborators that all succeed, except that the k-th [os.Pipe] fails
    where [pipes k] says so and the tunnel server answers [server]. *)
Definition sampleEnv (pipes : nat -> option error) (server : option error) : Env :=
  {| ContainerDevPodHelperLocation := "/usr/local/bin/devpod";
     IDEVSCode := "vscode";
     tokenReply := ("tok", None);
     pipeReply := pipes;
     sshRunReply := fun _ => Returns None;
     tunnelServerReply := fun _ _ => Returns server;
     privateKeyReply := ("key", None);
     startSSHSession := fun _ _ _ exec => exec;
     containerTunnelRun := sequentialTunnel;
     configureSSHConfigReply := fun _ => None |}.

(** The flags of [devpod ssh --user <user> --stdio]. *)
Definition sampleCmd (user : string) : SSHCmd :=
  {| Debug := false; Stdio := true; JumpContainer := false;
     Configure := false; Command := ""; User := user |}.

(* ================================================================== *)
(** ** Properties the specification states of the code, as predicates *)

(** A successful readiness wait has seen the workspace running: some status
    query of the run was answered [Running]. *)
Definition succeeds_only_when_running (fuel : nat) (client : WorkspaceClient)
    (create : bool) : Prop :=
  forall st', startWait fuel client create init = (Returns None, st') ->
  exists k, k < statusCalls st' /\ fst (statusReply client k) = StatusRunning.

Definition gitHelperFlag : string := " --configure-git-helper".
Definition dockerHelperFlag : string := " --configure-docker-helper".

(** The helper command begins with the fixed part and shows each flag
    exactly when the matching option is set. *)
Definition flags_shown_iff_set (env : Env) (user : string)
    (gitCredentials dockerCredentials : bool) : Prop :=
  let command :=
    credentialsServerCommand env user gitCredentials dockerCredentials in
  Strings.HasPrefix command
    (ContainerDevPodHelperLocation env
       ++ " agent container credentials-server --user '" ++ user ++ "'") = true
  /\ (Strings.Contains command gitHelperFlag = true <-> gitCredentials = true)
  /\ (Strings.Contains command dockerHelperFlag = true <-> dockerCredentials = true).

(* ================================================================== *)
(** ** Vocabulary for statements about whole runs *)

(** The statuses the [if] chain of [startWait] tests for; every other
    status falls out of the chain. *)
Definition transient (status : Status) : bool :=
  (status =? StatusBusy)%string
  || (status =? StatusStopped)%string
  || (status =? StatusNotFound)%string.

Definition isSleep (e : Event) : bool :=
  match e with EvSleep _ => true | _ => false end.

(** The progress notice of line 87. *)
Definition isNotice (e : Event) : bool :=
  match e with EvLog InfoLevel _ => true | _ => false end.

Definition isClose (e : Event) : bool :=
  match e with EvClose _ | EvCancel => true | _ => false end.

(** A client whose workspace stays busy and whose status queries take no
    time. *)
Definition alwaysBusy : WorkspaceClient := scripted [] None None.

(* ================================================================== *)
(** ** Counting calls *)

Lemma calls_cons (p : Event -> bool) (e : Event) (tr : list Event) :
  calls p (e :: tr) = if p e then S (calls p tr) else calls p tr.
Proof. unfold calls; cbn. now destruct (p e). Qed.

(** Counts the calls in a trace whose newest events are known. *)
Ltac count :=
  unfold statusCalls, startCalls, createCalls in *;
  cbn [trace now fst snd] in *;
  rewrite ?calls_cons;
  cbn [isStatus isStart isCreate isPipe].

(* ================================================================== *)
(** ** [startWait] *)

Section StartWait.

Variable client : WorkspaceClient.

(** A busy answer sends the loop round again: one more status query, no
    call of [Start] or [Create]. *)
Lemma startWait_body_busy (create : bool) (startWaiting : Z) (st : State) :
  statusReply client (statusCalls st) = (StatusBusy, None) ->
  exists startWaiting' st',
    startWait_body client create startWaiting st
      = (Returns (Continue startWaiting'), st')
    /\ statusCalls st' = S (statusCalls st)
    /\ startCalls st' = startCalls st
    /\ createCalls st' = createCalls st.
Proof.
  intros H. unfold startWait_body, Status_, bind. rewrite H. cbn.
  unfold Since, bind. cbn.
  destruct (_ >? _)%Z; cbn; eexists; eexists; (split; [reflexivity|]);
    count; auto.
Qed.

(** Any other answer than busy, stopped or not found falls onto the
    closing [return nil]. *)
Lemma startWait_body_running (create : bool) (startWaiting : Z) (st : State) :
  statusReply client (statusCalls st) = (StatusRunning, None) ->
  startWait_body client create startWaiting st
    = (Returns FallThrough,
       mkState (now st + statusLatency client (statusCalls st))
               (EvStatus :: trace st)).
Proof.
  intros H. unfold startWait_body, Status_, bind. rewrite H. reflexivity.
Qed.

Lemma startWait_loop_busy_then_running (create : bool) :
  forall (n fuel : nat) (startWaiting : Z) (st : State),
    (forall i, i < n ->
               statusReply client (statusCalls st + i) = (StatusBusy, None)) ->
    statusReply client (statusCalls st + n) = (StatusRunning, None) ->
    n < fuel ->
    exists st',
      startWait_loop fuel client create startWaiting st = (Returns None, st')
      /\ statusCalls st' = statusCalls st + n + 1
      /\ startCalls st' = startCalls st
      /\ createCalls st' = createCalls st.
Proof.
  induction n as [|n IH]; intros fuel sw st Hbusy Hrun Hfuel;
    (destruct fuel as [|fuel]; [lia|]); cbn [startWait_loop]; unfold bind.
  - rewrite Nat.add_0_r in Hrun.
    rewrite (startWait_body_running create sw st Hrun).
    eexists; split; [reflexivity|].
    count. repeat split; lia.
  - destruct (startWait_body_busy create sw st) as (sw' & st1 & E & Hs & Ha & Hc).
    { specialize (Hbusy 0). rewrite Nat.add_0_r in Hbusy. apply Hbusy; lia. }
    rewrite E.
    destruct (IH fuel sw' st1) as (st' & E' & Hs' & Ha' & Hc').
    + intros i Hi. rewrite Hs.
      replace (S (statusCalls st) + i) with (statusCalls st + S i) by lia.
      apply Hbusy; lia.
    + rewrite Hs.
      replace (S (statusCalls st) + n) with (statusCalls st + S n) by lia.
      exact Hrun.
    + lia.
    + exists st'. split; [exact E'|]. repeat split; lia.
Qed.

(** With provisioning off the loop never calls [Start] or [Create]. *)
Lemma startWait_loop_never_provisions :
  forall (fuel : nat) (startWaiting : Z) (st : State),
    let st' := snd (startWait_loop fuel client false startWaiting st) in
    startCalls st' = startCalls st /\ createCalls st' = createCalls st.
Proof.
  induction fuel as [|fuel IH]; intros sw st; cbn [startWait_loop].
  - split; reflexivity.
  - unfold bind, startWait_body, Status_. cbn -[statusCalls].
    destruct (statusReply client (statusCalls st)) as [status [e|]]; cbn.
    + count; auto.
    + destruct (status =? StatusBusy)%string.
      * unfold Since, bind; cbn.
        destruct (_ >? _)%Z; cbn;
          match goal with
          | |- context [startWait_loop fuel client false ?w ?s] =>
              destruct (IH w s) as [Ha Hc]; cbn in Ha, Hc;
              rewrite Ha, Hc
          end;
          count; auto.
      * destruct (status =? StatusStopped)%string;
          [|destruct (status =? StatusNotFound)%string];
          cbn; count; auto.
Qed.

End StartWait.

Lemma startWait_unfold (fuel : nat) (client : WorkspaceClient) (create : bool)
    (st : State) :
  startWait fuel client create st = startWait_loop fuel client create (now st) st.
Proof. reflexivity. Qed.

(** One pass of the loop that finds the workspace stopped (not found) with
    provisioning on, and whose [Start] ([Create]) succeeds. *)
Lemma startWait_body_provision (client : WorkspaceClient) (startWaiting : Z)
    (st : State) (status : Status) :
  statusReply client (statusCalls st) = (status, None) ->
  (status = StatusStopped /\ startReply client (startCalls st) = None) \/
  (status = StatusNotFound /\ createReply client (createCalls st) = None) ->
  startWait_body client true startWaiting st
    = (Returns FallThrough,
       mkState (now st + statusLatency client (statusCalls st))
               ((if (status =? StatusStopped)%string then EvStart else EvCreate)
                  :: EvStatus :: trace st)).
Proof.
  intros Hs [[-> Hp] | [-> Hp]];
    unfold startWait_body, Status_, Start, Create, bind;
    cbn -[statusCalls startCalls createCalls]; rewrite Hs;
    cbn -[statusCalls startCalls createCalls];
    repeat match goal with
      | |- context [startCalls (mkState ?t (EvStatus :: trace st))] =>
          change (startCalls (mkState t (EvStatus :: trace st)))
            with (startCalls st)
      | |- context [createCalls (mkState ?t (EvStatus :: trace st))] =>
          change (createCalls (mkState t (EvStatus :: trace st)))
            with (createCalls st)
      end;
    rewrite Hp; reflexivity.
Qed.

(** C1, as amended: when a pass of the readiness loop finds the workspace
    stopped (or not found), provisioning is allowed and [Start()] (or
    [Create()]) returns without error, [startWait] returns success right
    after that call: the trace ends with the status query followed by the
    provisioning call, and no further status query is made. *)
Theorem startWait_succeeds_right_after_provisioning
    (client : WorkspaceClient) (fuel : nat) (startWaiting : Z) (st : State)
    (status : Status) :
  statusReply client (statusCalls st) = (status, None) ->
  (status = StatusStopped /\ startReply client (startCalls st) = None) \/
  (status = StatusNotFound /\ createReply client (createCalls st) = None) ->
  let st' :=
    mkState (now st + statusLatency client (statusCalls st))
            ((if (status =? StatusStopped)%string then EvStart else EvCreate)
               :: EvStatus :: trace st) in
  startWait_loop (S fuel) client true startWaiting st = (Returns None, st')
  /\ startWait (S fuel) client true st = (Returns None, st')
  /\ statusCalls st' = S (statusCalls st).
Proof.
  intros Hs Hp st'. rewrite startWait_unfold. cbn [startWait_loop]. unfold bind.
  rewrite !(startWait_body_provision client _ st status Hs Hp).
  repeat split. subst st'. count. now destruct (status =? StatusStopped)%string.
Qed.

Lemma startWait_succeeds_right_after_provisioning_witness :
  let client := scripted [StatusStopped; StatusRunning] None None in
  statusReply client (statusCalls init) = (StatusStopped, None)
  /\ startReply client (startCalls init) = None
  /\ startWait 3 client true init = (Returns None, mkState 0 [EvStart; EvStatus]).
Proof.
  intros client. split; [reflexivity|]. split; [reflexivity|].
  apply (startWait_succeeds_right_after_provisioning
           client 2 0%Z init StatusStopped);
    [reflexivity | left; split; reflexivity].
Defined.

(** C1, counterexample: the status script is Stopped, Running and [Start]
    succeeds; [startWait] returns nil after the single query that was
    answered Stopped, so the run succeeded without any query having
    observed Running. *)
Lemma startWait_success_without_running :
  startWait 3 (scripted [StatusStopped; StatusRunning] None None) true init
    = (Returns None, mkState 0 [EvStart; EvStatus])
  /\ ~ succeeds_only_when_running
         3 (scripted [StatusStopped; StatusRunning] None None) true.
Proof.
  split; [reflexivity|].
  intros H. destruct (H _ eq_refl) as (k & Hk & Hr).
  cbn in Hk. assert (k = 0) by lia. subst k. discriminate Hr.
Qed.

(** C2, at the failing input: with provisioning on and the workspace not
    found, an error [e] of [Create()] comes back from [startWait] as [e]
    itself, with no action name in front; the same error from [Start()]
    comes back wrapped with "start workspace". *)
Theorem startWait_create_error_unwrapped (e : error) :
  startWait 1 (scripted [StatusNotFound] None (Some e)) true init
    = (Returns (Some e), mkState 0 [EvCreate; EvStatus])
  /\ startWait 1 (scripted [StatusStopped] (Some e) None) true init
    = (Returns (Some (withMessage e "start workspace")),
       mkState 0 [EvStart; EvStatus])
  /\ Error (withMessage e "start workspace") = "start workspace: " ++ Error e.
Proof. repeat split. Qed.

(** C3: if the first [n] status queries are answered Busy and the next one
    Running, [startWait] returns nil having made exactly [n + 1] status
    queries and no call of [Start()] or [Create()], whatever the
    provisioning flag; with [n = 0] the first query already ends it. *)
Theorem startWait_busy_then_running
    (client : WorkspaceClient) (create : bool) (n fuel : nat) :
  (forall i, i < n -> statusReply client i = (StatusBusy, None)) ->
  statusReply client n = (StatusRunning, None) ->
  n < fuel ->
  exists st',
    startWait fuel client create init = (Returns None, st')
    /\ statusCalls st' = n + 1
    /\ startCalls st' = 0
    /\ createCalls st' = 0.
Proof.
  intros Hbusy Hrun Hfuel. rewrite startWait_unfold.
  destruct (startWait_loop_busy_then_running client create n fuel (now init) init)
    as (st' & E & Hs & Ha & Hc); auto.
  exists st'. split; [exact E|]. cbn in Hs, Ha, Hc. auto.
Qed.

Lemma startWait_busy_then_running_witness :
  let client := scripted [StatusBusy; StatusBusy; StatusRunning] None None in
  (forall i, i < 2 -> statusReply client i = (StatusBusy, None))
  /\ statusReply client 2 = (StatusRunning, None)
  /\ 2 < 3
  /\ exists st',
       startWait 3 client false init = (Returns None, st')
       /\ statusCalls st' = 2 + 1 /\ startCalls st' = 0 /\ createCalls st' = 0.
Proof.
  intros client.
  assert (Hbusy : forall i, i < 2 -> statusReply client i = (StatusBusy, None)).
  { intros [|[|i]] Hi; [reflexivity | reflexivity | lia]. }
  split; [exact Hbusy|]. split; [reflexivity|]. split; [lia|].
  apply (startWait_busy_then_running client false 2 3 Hbusy); [reflexivity | lia].
Defined.

(** The wait with provisioning off, on a workspace first seen stopped or
    not found. *)
Lemma startWait_not_ready
    (client : WorkspaceClient) (fuel : nat) (status : Status) :
  statusReply client 0 = (status, None) ->
  status = StatusStopped \/ status = StatusNotFound ->
  exists e st',
    startWait (S fuel) client false init = (Returns (Some e), st')
    /\ Error e = (if (status =? StatusStopped)%string
                  then "workspace is stopped" else "workspace wasn't found")
    /\ trace st' = [EvStatus]
    /\ startCalls st' = 0 /\ createCalls st' = 0.
Proof.
  intros Hs [-> | ->]; rewrite startWait_unfold; cbn [startWait_loop];
    unfold bind, startWait_body, Status_;
    cbn -[statusCalls]; change (statusCalls init) with 0; rewrite Hs; cbn;
    eexists; eexists; (split; [reflexivity|]); repeat split.
Qed.

(** C4: with provisioning off, a first status of Stopped or NotFound makes
    [startWait] return an error whose message is exactly "workspace is
    stopped", respectively "workspace wasn't found"; the only call made is
    the status query, so [Start()] and [Create()] are never called. *)
Theorem startWait_without_provisioning_fails
    (client : WorkspaceClient) (fuel : nat) (status : Status) :
  statusReply client 0 = (status, None) ->
  status = StatusStopped \/ status = StatusNotFound ->
  exists e st',
    startWait (S fuel) client false init = (Returns (Some e), st')
    /\ Error e = (if (status =? StatusStopped)%string
                  then "workspace is stopped" else "workspace wasn't found")
    /\ trace st' = [EvStatus]
    /\ startCalls st' = 0 /\ createCalls st' = 0.
Proof. exact (startWait_not_ready client fuel status). Qed.

Lemma startWait_without_provisioning_fails_witness :
  let client := scripted [StatusNotFound] None None in
  statusReply client 0 = (StatusNotFound, None)
  /\ exists e st',
       startWait 1 client false init = (Returns (Some e), st')
       /\ Error e = "workspace wasn't found"
       /\ trace st' = [EvStatus]
       /\ startCalls st' = 0 /\ createCalls st' = 0.
Proof.
  intros client. split; [reflexivity|].
  apply (startWait_without_provisioning_fails client 0 StatusNotFound);
    [reflexivity | right; reflexivity].
Defined.

(* ================================================================== *)
(** ** Strings: concatenation, prefixes and occurrences *)

Lemma append_assoc (a b c : string) : (a ++ b) ++ c = a ++ (b ++ c).
Proof. induction a as [|x a IH]; cbn; [reflexivity | now rewrite IH]. Qed.

Lemma append_nil_r (a : string) : a ++ "" = a.
Proof. induction a as [|x a IH]; cbn; [reflexivity | now rewrite IH]. Qed.

Lemma HasPrefix_append (p s : string) : Strings.HasPrefix (p ++ s) p = true.
Proof.
  induction p as [|x p IH]; cbn; [reflexivity|].
  now rewrite Ascii.eqb_refl, IH.
Qed.

(** A prefix test does not look past a byte that the prefix lacks. *)
Lemma HasPrefix_separator (c : ascii) (s2 : string) :
  forall s1 p : string,
    Strings.HasByte p c = false ->
    Strings.HasPrefix (s1 ++ String c s2) p = Strings.HasPrefix s1 p.
Proof.
  induction s1 as [|x s1 IH]; intros [|d p] Hc; cbn in *; try reflexivity.
  - apply orb_false_elim in Hc as [Hd _].
    rewrite Ascii.eqb_sym, Hd. reflexivity.
  - apply orb_false_elim in Hc as [_ Hp]. now rewrite IH.
Qed.

(** No occurrence of [p] straddles a byte that [p] lacks. *)
Lemma Contains_separator (c : ascii) (s2 p : string) :
  Strings.HasByte p c = false ->
  forall s1 : string,
    Strings.Contains (s1 ++ String c s2) p
    = Strings.Contains s1 p || Strings.Contains s2 p.
Proof.
  intros Hc. induction s1 as [|x s1 IH].
  - change ("" ++ String c s2) with (String c s2).
    cbn [Strings.Contains].
    change (String c s2) with ("" ++ String c s2) at 1.
    rewrite (HasPrefix_separator c s2 "" p Hc). now rewrite orb_false_r.
  - change (String x s1 ++ String c s2) with (String x (s1 ++ String c s2)).
    cbn [Strings.Contains]. rewrite IH.
    change (String x (s1 ++ String c s2)) with (String x s1 ++ String c s2).
    rewrite (HasPrefix_separator c s2 (String x s1) p Hc).
    now rewrite !orb_assoc.
Qed.

(** An occurrence of [p] that reaches its first byte [c] further on, where
    [p] has no second [c], starts at that byte or later. *)
Lemma Contains_leading (c : ascii) (s2 p : string) :
  Strings.HasByte p c = false ->
  forall s1 : string,
    Strings.Contains (s1 ++ String c s2) (String c p)
    = Strings.Contains s1 (String c p)
      || Strings.Contains (String c s2) (String c p).
Proof.
  intros Hc. set (later := Strings.Contains (String c s2) (String c p)).
  induction s1 as [|x s1 IH].
  - reflexivity.
  - change (String x s1 ++ String c s2) with (String x (s1 ++ String c s2)).
    cbn [Strings.Contains]. rewrite IH.
    cbn [Strings.HasPrefix].
    rewrite (HasPrefix_separator c s2 s1 p Hc).
    now rewrite !orb_assoc.
Qed.

(* ================================================================== *)
(** ** The two remote commands *)

(** C5: the command of the outer tunnel is a function of (agentPath, token,
    workspaceInfo, debug, user) and nothing else; it is the agent path,
    the fixed words, the quoted token and the quoted workspace info, then
    " --debug" exactly when [debug] is set, then " --user='<user>'" exactly
    when [user] is not empty.  The part before the user segment does not
    mention [user], so two users give commands that differ in that segment
    only. *)
Theorem outerTunnelCommand_form
    (agentPath tok workspaceInfo : string) (debug : bool) (user : string) :
  outerTunnelCommand agentPath tok workspaceInfo debug user
  = (agentPath
       ++ " agent container-tunnel --start-container --track-activity --token '"
       ++ tok ++ "' --workspace-info '" ++ workspaceInfo ++ "'"
       ++ (if debug then " --debug" else ""))
    ++ (if (user =? "")%string then "" else " --user='" ++ user ++ "'").
Proof.
  unfold outerTunnelCommand.
  destruct debug, (user =? "")%string; cbn;
    rewrite ?append_assoc, ?append_nil_r; cbn;
    rewrite ?append_assoc, ?append_nil_r; cbn;
    rewrite ?append_assoc, ?append_nil_r; reflexivity.
Qed.

(** The helper command, written out. *)
Lemma credentialsServerCommand_form (env : Env) (user : string)
    (gitCredentials dockerCredentials : bool) :
  credentialsServerCommand env user gitCredentials dockerCredentials
  = ContainerDevPodHelperLocation env
      ++ " agent container credentials-server --user '" ++ user ++ "'"
      ++ (if gitCredentials then gitHelperFlag else "")
      ++ (if dockerCredentials then dockerHelperFlag else "").
Proof.
  unfold credentialsServerCommand, gitHelperFlag, dockerHelperFlag.
  destruct gitCredentials, dockerCredentials; cbn;
    rewrite ?append_assoc, ?append_nil_r; cbn;
    rewrite ?append_assoc, ?append_nil_r; cbn;
    rewrite ?append_assoc, ?append_nil_r; reflexivity.
Qed.

(** Where a flag can occur in the helper command: in the helper path, in
    the user name, or in the flags appended after the closing quote. *)
Lemma Contains_credentialsServerCommand (helper user tail flag : string) :
  Strings.HasByte flag " " = false ->
  Strings.HasByte flag "'" = false ->
  Strings.Contains
    (" agent container credentials-server --user ") (String " " flag) = false ->
  Strings.Contains
    (helper ++ " agent container credentials-server --user '" ++ user ++ "'"
            ++ tail) (String " " flag)
  = Strings.Contains helper (String " " flag)
    || Strings.Contains user (String " " flag)
    || Strings.Contains tail (String " " flag).
Proof.
  intros Hsp Hq Hfix.
  change (helper ++ " agent container credentials-server --user '" ++ user
                 ++ "'" ++ tail)
    with (helper ++ String " "
            ("agent container credentials-server --user '" ++ user
               ++ "'" ++ tail)).
  rewrite (Contains_leading " " _ flag Hsp).
  change (String " " ("agent container credentials-server --user '" ++ user
                        ++ "'" ++ tail))
    with (" agent container credentials-server --user "
            ++ String "'" (user ++ String "'" tail)).
  assert (Hq' : Strings.HasByte (String " " flag) "'" = false)
    by (cbn; exact Hq).
  rewrite (Contains_separator "'" _ _ Hq'), Hfix.
  rewrite (Contains_separator "'" _ _ Hq').
  cbn [orb]. now rewrite orb_assoc.
Qed.

(** C6: with both forwarding flags false [runCredentialsServer] returns nil
    at once and leaves the state as it found it: no pipe is allocated, no
    remote process is launched and the tunnel server is not started. *)
Theorem runCredentialsServer_nothing_to_forward
    (env : Env) (ctx : Context) (user : string) (st : State) :
  runCredentialsServer env ctx user false false st = (Returns None, st)
  /\ calls isSpawn (trace (snd (runCredentialsServer env ctx user false false st)))
     = calls isSpawn (trace st).
Proof. split; reflexivity. Qed.

(** C7, as amended: the helper command always begins with
    "<agentHelperPath> agent container credentials-server --user '<user>'",
    for every helper path, user name and pair of options.  For each of the
    two flags, provided neither the helper path nor the user name itself
    contains the text of that flag, the command contains
    " --configure-git-helper" if and only if [gitCredentials] is true, and
    " --configure-docker-helper" if and only if [dockerCredentials] is
    true. *)
Theorem credentialsServerCommand_flags
    (env : Env) (user : string) (gitCredentials dockerCredentials : bool) :
  let command :=
    credentialsServerCommand env user gitCredentials dockerCredentials in
  Strings.HasPrefix command
    (ContainerDevPodHelperLocation env
       ++ " agent container credentials-server --user '" ++ user ++ "'") = true
  /\ (Strings.Contains (ContainerDevPodHelperLocation env) gitHelperFlag = false ->
      Strings.Contains user gitHelperFlag = false ->
      (Strings.Contains command gitHelperFlag = true <-> gitCredentials = true))
  /\ (Strings.Contains (ContainerDevPodHelperLocation env) dockerHelperFlag = false ->
      Strings.Contains user dockerHelperFlag = false ->
      (Strings.Contains command dockerHelperFlag = true
       <-> dockerCredentials = true)).
Proof.
  intros command. subst command.
  rewrite credentialsServerCommand_form. split; [|split].
  - replace (ContainerDevPodHelperLocation env
               ++ " agent container credentials-server --user '" ++ user ++ "'"
               ++ (if gitCredentials then gitHelperFlag else "")
               ++ (if dockerCredentials then dockerHelperFlag else ""))
      with ((ContainerDevPodHelperLocation env
               ++ " agent container credentials-server --user '" ++ user ++ "'")
              ++ (if gitCredentials then gitHelperFlag else "")
              ++ (if dockerCredentials then dockerHelperFlag else ""))
      by (now rewrite !append_assoc).
    apply HasPrefix_append.
  - intros Hh Hu. unfold gitHelperFlag in *.
    rewrite Contains_credentialsServerCommand by reflexivity.
    rewrite Hh, Hu. now destruct gitCredentials, dockerCredentials.
  - intros Hh Hu. unfold dockerHelperFlag in *.
    rewrite Contains_credentialsServerCommand by reflexivity.
    rewrite Hh, Hu. now destruct gitCredentials, dockerCredentials.
Qed.

Lemma credentialsServerCommand_flags_witness :
  let env := sampleEnv (fun _ => None) None in
  Strings.HasPrefix
    (credentialsServerCommand env "dev --configure-git-helper" false true)
    (ContainerDevPodHelperLocation env
       ++ " agent container credentials-server --user '"
       ++ "dev --configure-git-helper" ++ "'") = true
  /\ Strings.Contains (ContainerDevPodHelperLocation env) gitHelperFlag = false
  /\ Strings.Contains "dev" gitHelperFlag = false
  /\ Strings.Contains (ContainerDevPodHelperLocation env) dockerHelperFlag = false
  /\ Strings.Contains "dev" dockerHelperFlag = false
  /\ flags_shown_iff_set env "dev" true false.
Proof.
  intros env.
  split;
    [exact (proj1 (credentialsServerCommand_flags
                     env "dev --configure-git-helper" false true))|].
  do 4 (split; [reflexivity|]).
  destruct (credentialsServerCommand_flags env "dev" true false)
    as (Hprefix & Hgit & Hdocker).
  split; [exact Hprefix|].
  split; [exact (Hgit eq_refl eq_refl) | exact (Hdocker eq_refl eq_refl)].
Defined.

(** C7, counterexample: the user name is "dev --configure-git-helper", git
    forwarding is off and docker forwarding is on; the command contains
    " --configure-git-helper" although [gitCredentials] is false. *)
Lemma credentialsServerCommand_flag_inside_user :
  let env := sampleEnv (fun _ => None) None in
  credentialsServerCommand env "dev --configure-git-helper" false true
  = "/usr/local/bin/devpod agent container credentials-server --user 'dev --configure-git-helper' --configure-docker-helper"
  /\ ~ flags_shown_iff_set env "dev --configure-git-helper" false true.
Proof.
  split; [reflexivity|].
  intros (_ & [Hgit _] & _). specialize (Hgit eq_refl). discriminate Hgit.
Qed.

(* ================================================================== *)
(** ** [jumpContainer] and the handler of the credentials relay *)

(** What the relay handler does, by the outcome of [runCredentialsServer]. *)
Lemma relay_handler_run (env : Env) (cmd : SSHCmd) (client : WorkspaceClient)
    (h : Handler) (ctx : Context) (st : State) :
  runInContainer env cmd client = Some h ->
  h ctx st =
    match runCredentialsServer env ctx (User cmd)
            (negb (ideName client =? IDEVSCode env)%string) true st with
    | (Returns (Some e), s1) =>
        (if cancelled ctx then Returns None else Blocks,
         mkState (now s1)
           (EvLog ErrorLevel ("Error running credential server: " ++ Error e)
              :: trace s1))
    | (Returns None, s1) => (if cancelled ctx then Returns None else Blocks, s1)
    | (Blocks, s1) => (Blocks, s1)
    | (OutOfFuel, s1) => (OutOfFuel, s1)
    end.
Proof.
  unfold runInContainer. destruct (negb (User cmd =? "")%string); [|discriminate].
  intros [= <-]. unfold bind.
  destruct (runCredentialsServer _ _ _ _ _ st) as [[[e|]| |] s1];
    try reflexivity; unfold awaitDone, LogErrorf, Logf, emit, ret, block;
    cbn; rewrite ?append_nil_r; destruct (cancelled ctx); reflexivity.
Qed.

Lemma relay_handler_never_fails (env : Env) (cmd : SSHCmd)
    (client : WorkspaceClient) (h : Handler) (ctx : Context) (st : State)
    (e : error) :
  runInContainer env cmd client = Some h ->
  fst (h ctx st) <> Returns (Some e).
Proof.
  intros Hh. rewrite (relay_handler_run env cmd client h ctx st Hh).
  destruct (runCredentialsServer _ _ _ _ _ st) as [[[e'|]| |] s1];
    cbn; try destruct (cancelled ctx); discriminate.
Qed.

(** C8: the relay handler that [jumpContainer] installs never hands an
    error on.  Whenever [runCredentialsServer] returns an error, the
    handler logs "Error running credential server: <error>" and then
    returns nil as soon as the context is done (it waits as long as the
    context is not); and in no run at all does it return an error. *)
Theorem relay_handler_swallows_error (env : Env) (cmd : SSHCmd)
    (client : WorkspaceClient) (h : Handler) (ctx : Context) (st : State)
    (e : error) :
  runInContainer env cmd client = Some h ->
  fst (runCredentialsServer env ctx (User cmd)
         (negb (ideName client =? IDEVSCode env)%string) true st)
    = Returns (Some e) ->
  fst (h ctx st) = (if cancelled ctx then Returns None else Blocks)
  /\ In (EvLog ErrorLevel ("Error running credential server: " ++ Error e))
        (trace (snd (h ctx st)))
  /\ forall (ctx0 : Context) (st0 : State) (e0 : error),
       fst (h ctx0 st0) <> Returns (Some e0).
Proof.
  intros Hh Herr. split; [|split].
  - rewrite (relay_handler_run env cmd client h ctx st Hh).
    destruct (runCredentialsServer _ _ _ _ _ st) as [o s1]; cbn in Herr.
    subst o. reflexivity.
  - rewrite (relay_handler_run env cmd client h ctx st Hh).
    destruct (runCredentialsServer _ _ _ _ _ st) as [o s1]; cbn in Herr.
    subst o. cbn. left. reflexivity.
  - intros ctx0 st0 e0. now apply (relay_handler_never_fails env cmd client).
Qed.

Lemma relay_handler_swallows_error_witness :
  let env := sampleEnv (fun _ => None) (Some (errorString "closed")) in
  let client := scripted [StatusRunning] None None in
  let ctx := {| cancelled := true |} in
  exists h,
    runInContainer env (sampleCmd "dev") client = Some h
    /\ fst (runCredentialsServer env ctx "dev" false true init)
       = Returns (Some (withMessage (errorString "closed") "run tunnel server"))
    /\ fst (h ctx init) = Returns None
    /\ In (EvLog ErrorLevel
             "Error running credential server: run tunnel server: closed")
          (trace (snd (h ctx init))).
Proof.
  intros env client ctx. eexists. split; [reflexivity|]. split; [reflexivity|].
  pose proof (relay_handler_swallows_error
                env (sampleCmd "dev") client _ ctx init
                (withMessage (errorString "closed") "run tunnel server")
                eq_refl eq_refl) as (Hret & Hlog & _).
  split; [exact Hret | exact Hlog].
Defined.

(** C9: [jumpContainer] runs the readiness wait with provisioning off.  If
    the first status is Stopped or NotFound it returns the error of the
    wait ("workspace is stopped" / "workspace wasn't found") having made
    the status query and no other call; and in every run the wait it
    performs leaves the numbers of [Start()] and [Create()] calls as they
    were, and an error of the wait is the result of [jumpContainer]. *)
Theorem jumpContainer_waits_without_provisioning
    (fuel : nat) (env : Env) (cmd : SSHCmd) (ctx : Context)
    (client : WorkspaceClient) (status : Status) :
  statusReply client 0 = (status, None) ->
  status = StatusStopped \/ status = StatusNotFound ->
  (exists e st',
     jumpContainer (S fuel) env cmd ctx client init = (Returns (Some e), st')
     /\ Error e = (if (status =? StatusStopped)%string
                   then "workspace is stopped" else "workspace wasn't found")
     /\ trace st' = [EvStatus]
     /\ startCalls st' = 0 /\ createCalls st' = 0)
  /\ forall (n : nat) (st : State),
       let waited := startWait n client false st in
       startCalls (snd waited) = startCalls st
       /\ createCalls (snd waited) = createCalls st
       /\ (forall e, fst waited = Returns (Some e) ->
                     jumpContainer n env cmd ctx client st = waited).
Proof.
  intros Hs Hstatus. split.
  - destruct (startWait_not_ready client fuel status Hs Hstatus)
      as (e & st' & E & Hmsg & Htr & Ha & Hc).
    exists e, st'. unfold jumpContainer, bind. rewrite E. auto.
  - intros n st waited. subst waited.
    destruct (startWait_loop_never_provisions client n (now st) st) as [Ha Hc].
    rewrite startWait_unfold. repeat split; auto.
    intros e He. unfold jumpContainer, bind. rewrite startWait_unfold.
    destruct (startWait_loop n client false (now st) st) as [o s1].
    cbn in He. subst o. reflexivity.
Qed.

Lemma jumpContainer_waits_without_provisioning_witness :
  let env := sampleEnv (fun _ => None) None in
  let client := scripted [StatusStopped; StatusRunning] None None in
  let ctx := {| cancelled := true |} in
  statusReply client 0 = (StatusStopped, None)
  /\ exists e st',
       jumpContainer 5 env (sampleCmd "dev") ctx client init
         = (Returns (Some e), st')
       /\ Error e = "workspace is stopped"
       /\ trace st' = [EvStatus]
       /\ startCalls st' = 0 /\ createCalls st' = 0.
Proof.
  intros env client ctx. split; [reflexivity|].
  apply (jumpContainer_waits_without_provisioning
           4 env (sampleCmd "dev") ctx client StatusStopped);
    [reflexivity | left; reflexivity].
Defined.

(** The relay handler reaches the launch of the helper and the tunnel
    server when both pipes can be allocated. *)
Lemma runCredentialsServer_docker_trace (env : Env) (ctx : Context)
    (user : string) (gitCredentials : bool) (st : State) :
  pipeReply env (calls isPipe (trace st)) = None ->
  pipeReply env (S (calls isPipe (trace st))) = None ->
  let st' := snd (runCredentialsServer env ctx user gitCredentials true st) in
  In (EvRunTunnelServer gitCredentials true) (trace st')
  /\ In (EvGo (credentialsServerCommand env user gitCredentials true)) (trace st').
Proof.
  intros H1 H2. unfold runCredentialsServer. rewrite andb_false_r.
  unfold bind, defer, Pipe, RunTunnelServer, emit, await, ret.
  cbn -[calls credentialsServerCommand]. rewrite H1.
  cbn -[calls credentialsServerCommand]. rewrite calls_cons.
  cbn -[calls credentialsServerCommand]. rewrite H2.
  cbn -[calls credentialsServerCommand].
  destruct (tunnelServerReply env gitCredentials true) as [[e|]| |];
    cbn -[calls credentialsServerCommand];
    try destruct (sshRunReply env _) as [r| |];
    cbn -[calls credentialsServerCommand]; auto 10.
Qed.

(** C10: the relay handler is nil exactly when the [--user] flag is empty.
    When it is installed it calls [runCredentialsServer] with docker
    forwarding on and with git forwarding on exactly when the configured
    IDE is not VSCode: provided the two pipes can be allocated, the tunnel
    server is started with these two flags and the helper is launched with
    the command built from them. *)
Theorem runInContainer_installed_iff_user
    (env : Env) (cmd : SSHCmd) (client : WorkspaceClient) :
  (runInContainer env cmd client = None <-> User cmd = "")
  /\ forall (ctx : Context) (st : State),
       User cmd <> "" ->
       pipeReply env (calls isPipe (trace st)) = None ->
       pipeReply env (S (calls isPipe (trace st))) = None ->
       exists h,
         runInContainer env cmd client = Some h
         /\ let gitCredentials := negb (ideName client =? IDEVSCode env)%string in
            In (EvRunTunnelServer gitCredentials true) (trace (snd (h ctx st)))
            /\ In (EvGo (credentialsServerCommand env (User cmd)
                           gitCredentials true))
                  (trace (snd (h ctx st))).
Proof.
  split.
  - unfold runInContainer. destruct (String.eqb_spec (User cmd) ""); cbn; split;
      intros H; try reflexivity; try discriminate; try assumption; contradiction.
  - intros ctx st Huser H1 H2.
    destruct (runInContainer env cmd client) as [h|] eqn:Hh.
    + exists h. split; [reflexivity|]. intros git.
      rewrite (relay_handler_run env cmd client h ctx st Hh). fold git.
      destruct (runCredentialsServer_docker_trace env ctx (User cmd) git st H1 H2)
        as [Hsrv Hgo].
      destruct (runCredentialsServer env ctx (User cmd) git true st)
        as [[[e|]| |] s1]; cbn in *; auto.
    + exfalso. unfold runInContainer in Hh.
      destruct (String.eqb_spec (User cmd) ""); [contradiction | discriminate].
Qed.

Lemma runInContainer_installed_iff_user_witness :
  let env := sampleEnv (fun _ => None) None in
  let client := scripted [StatusRunning] None None in
  let ctx := {| cancelled := true |} in
  User (sampleCmd "dev") <> ""
  /\ pipeReply env (calls isPipe (trace init)) = None
  /\ pipeReply env (S (calls isPipe (trace init))) = None
  /\ exists h,
       runInContainer env (sampleCmd "dev") client = Some h
       /\ In (EvRunTunnelServer false true) (trace (snd (h ctx init)))
       /\ In (EvGo "/usr/local/bin/devpod agent container credentials-server --user 'dev' --configure-docker-helper")
             (trace (snd (h ctx init))).
Proof.
  intros env client ctx.
  assert (Huser : User (sampleCmd "dev") <> "") by discriminate.
  split; [exact Huser|]. split; [reflexivity|]. split; [reflexivity|].
  exact (proj2 (runInContainer_installed_iff_user env (sampleCmd "dev") client)
               ctx init Huser eq_refl eq_refl).
Defined.

(* ================================================================== *)
(** ** More on the readiness wait *)

Section Wait.

Variable client : WorkspaceClient.

(** One busy pass, written out: the notice is logged, and the waiting time
    starts afresh, when more than ten seconds have gone by. *)
Lemma startWait_body_busy_run (create : bool) (startWaiting : Z) (st : State) :
  statusReply client (statusCalls st) = (StatusBusy, None) ->
  startWait_body client create startWaiting st
  = let t := (now st + statusLatency client (statusCalls st))%Z in
    if (t - startWaiting >? 10000000000)%Z
    then (Returns (Continue t),
          mkState (t + 2000000000)
            (EvSleep 2000000000
               :: EvLog DebugLevel "Got status Busy, expected: Running"
               :: EvLog InfoLevel "Waiting for workspace to come up..."
               :: EvStatus :: trace st))
    else (Returns (Continue startWaiting),
          mkState (t + 2000000000)
            (EvSleep 2000000000 :: EvStatus :: trace st)).
Proof.
  intros H. unfold startWait_body, Status_, bind. rewrite H. cbn.
  unfold Since, bind. cbn. destruct (_ >? _)%Z; reflexivity.
Qed.

(** [n] busy answers use up [n] passes and [n] sleeps and nothing else. *)
Lemma startWait_loop_skip_busy (create : bool) :
  forall (n fuel : nat) (startWaiting : Z) (st : State),
    (forall i, i < n ->
               statusReply client (statusCalls st + i) = (StatusBusy, None)) ->
    exists startWaiting' st1,
      startWait_loop (n + fuel) client create startWaiting st
        = startWait_loop fuel client create startWaiting' st1
      /\ statusCalls st1 = statusCalls st + n
      /\ startCalls st1 = startCalls st
      /\ createCalls st1 = createCalls st
      /\ calls isSleep (trace st1) = calls isSleep (trace st) + n.
Proof.
  induction n as [|n IH]; intros fuel sw st Hbusy.
  - exists sw, st. repeat split; lia.
  - assert (H0 : statusReply client (statusCalls st) = (StatusBusy, None)).
    { rewrite <- (Nat.add_0_r (statusCalls st)). apply Hbusy. lia. }
    cbn [Nat.add startWait_loop]. unfold bind at 1.
    rewrite (startWait_body_busy_run create sw st H0). cbv zeta.
    destruct (_ >? _)%Z;
      match goal with
      | |- context [startWait_loop (n + fuel) client create ?w ?s] =>
          destruct (IH fuel w s) as (sw' & st1 & E & Hs & Ha & Hc & Hz);
          [ intros i Hi;
            replace (statusCalls s + i) with (statusCalls st + S i)
              by (count; lia);
            apply Hbusy; lia
          | exists sw', st1; split; [exact E|];
            revert Hs Ha Hc Hz; count; rewrite ?calls_cons; cbn [isSleep];
            intros; repeat split; lia ]
      end.
Qed.

End Wait.

(** X1: a failing status query ends the wait at once.  If the first [n]
    queries are answered Busy and the next one fails with [e], [startWait]
    returns [e] itself, not wrapped, after [n + 1] queries and without
    calling [Start()] or [Create()]; the status that came with the error
    is not looked at. *)
Theorem startWait_status_error
    (client : WorkspaceClient) (create : bool) (n fuel : nat)
    (status : Status) (e : error) :
  (forall i, i < n -> statusReply client i = (StatusBusy, None)) ->
  statusReply client n = (status, Some e) ->
  n < fuel ->
  exists st',
    startWait fuel client create init = (Returns (Some e), st')
    /\ statusCalls st' = n + 1
    /\ startCalls st' = 0 /\ createCalls st' = 0.
Proof.
  intros Hbusy Herr Hfuel. rewrite startWait_unfold.
  replace fuel with (n + S (fuel - S n)) by lia.
  destruct (startWait_loop_skip_busy client create n (S (fuel - S n))
              (now init) init Hbusy) as (sw & st1 & E & Hs & Ha & Hc & _).
  rewrite E. cbn [startWait_loop]. unfold bind, startWait_body, Status_.
  cbn -[statusCalls]. rewrite Hs. change (statusCalls init + n) with n.
  rewrite Herr. cbn -[statusCalls startCalls createCalls].
  eexists. split; [reflexivity|].
  revert Hs Ha Hc. count. cbn. intros. repeat split; lia.
Qed.

Lemma startWait_status_error_witness :
  let client :=
    {| statusReply := fun k => if (k <? 2)%nat then (StatusBusy, None)
                               else (StatusBusy, Some (errorString "timeout"));
       statusLatency := fun _ => 0%Z;
       startReply := fun _ => None;
       createReply := fun _ => None;
       agentInfoReply := ("{}", None);
       agentPath := "/tmp/devpod";
       ideName := "none" |} in
  exists st',
    startWait 3 client true init = (Returns (Some (errorString "timeout")), st')
    /\ statusCalls st' = 2 + 1 /\ startCalls st' = 0 /\ createCalls st' = 0.
Proof.
  intros client.
  apply (startWait_status_error client true 2 3 StatusBusy (errorString "timeout"));
    [intros [|[|i]] Hi; [reflexivity | reflexivity | lia] | reflexivity | lia].
Defined.

(** X2: every status other than Busy, Stopped and NotFound counts as ready,
    whatever it says.  If the first [n] queries are answered Busy and the
    next one with such a status, [startWait] returns nil after [n + 1]
    queries and [n] sleeps, without calling [Start()] or [Create()]. *)
Theorem startWait_unknown_status_is_ready
    (client : WorkspaceClient) (create : bool) (n fuel : nat) (status : Status) :
  (forall i, i < n -> statusReply client i = (StatusBusy, None)) ->
  statusReply client n = (status, None) ->
  transient status = false ->
  n < fuel ->
  exists st',
    startWait fuel client create init = (Returns None, st')
    /\ statusCalls st' = n + 1
    /\ calls isSleep (trace st') = n
    /\ startCalls st' = 0 /\ createCalls st' = 0.
Proof.
  intros Hbusy Hlast Hready Hfuel. rewrite startWait_unfold.
  replace fuel with (n + S (fuel - S n)) by lia.
  destruct (startWait_loop_skip_busy client create n (S (fuel - S n))
              (now init) init Hbusy) as (sw & st1 & E & Hs & Ha & Hc & Hz).
  rewrite E. cbn [startWait_loop]. unfold bind, startWait_body, Status_.
  cbn -[statusCalls]. rewrite Hs. change (statusCalls init + n) with n.
  rewrite Hlast. unfold transient in Hready.
  apply orb_false_elim in Hready as [Hready Hnf].
  apply orb_false_elim in Hready as [Hb Hst].
  rewrite Hb, Hst, Hnf. cbn -[statusCalls startCalls createCalls].
  eexists. split; [reflexivity|].
  revert Hs Ha Hc Hz. count. rewrite ?calls_cons. cbn. intros. repeat split; lia.
Qed.

Lemma startWait_unknown_status_is_ready_witness :
  let client := scripted [StatusBusy; "Deleting"] None None in
  exists st',
    startWait 2 client false init = (Returns None, st')
    /\ statusCalls st' = 1 + 1
    /\ calls isSleep (trace st') = 1
    /\ startCalls st' = 0 /\ createCalls st' = 0.
Proof.
  intros client.
  apply (startWait_unknown_status_is_ready client false 1 2 "Deleting");
    [intros [|i] Hi; [reflexivity | lia] | reflexivity | reflexivity | lia].
Defined.

(** X3: the wait has no time limit of its own.  While every status query
    is answered Busy the loop does not return: after any number [k] of
    passes it is still polling, having made [k] status queries and slept
    [k] times, with no call of [Start()] or [Create()]. *)
Theorem startWait_polls_while_busy
    (client : WorkspaceClient) (create : bool) (k : nat) :
  (forall i, i < k -> statusReply client i = (StatusBusy, None)) ->
  exists st',
    startWait k client create init = (OutOfFuel, st')
    /\ statusCalls st' = k
    /\ calls isSleep (trace st') = k
    /\ startCalls st' = 0 /\ createCalls st' = 0.
Proof.
  intros Hbusy. rewrite startWait_unfold.
  destruct (startWait_loop_skip_busy client create k 0 (now init) init Hbusy)
    as (sw & st1 & E & Hs & Ha & Hc & Hz).
  rewrite Nat.add_0_r in E. rewrite E. exists st1. split; [reflexivity|].
  cbn in Hs, Ha, Hc, Hz. repeat split; assumption.
Qed.

Lemma startWait_polls_while_busy_witness :
  exists st',
    startWait 4 alwaysBusy true init = (OutOfFuel, st')
    /\ statusCalls st' = 4
    /\ calls isSleep (trace st') = 4
    /\ startCalls st' = 0 /\ createCalls st' = 0.
Proof.
  apply (startWait_polls_while_busy alwaysBusy true 4).
  intros i Hi. unfold alwaysBusy, scripted. cbn. now destruct i.
Defined.

Section Cadence.

Variable client : WorkspaceClient.
Hypothesis latency_nonneg : forall k, (0 <= statusLatency client k)%Z.

(** [p] bounds from below the two-second sleeps since the waiting time was
    last set: a pass that finds six of them logs the notice. *)
Lemma startWait_loop_notices (create : bool) :
  forall (fuel p : nat) (startWaiting : Z) (st : State),
    p <= 6 ->
    (2000000000 * Z.of_nat p <= now st - startWaiting)%Z ->
    (forall i, i < fuel ->
               statusReply client (statusCalls st + i) = (StatusBusy, None)) ->
    calls isNotice (trace st) + (fuel + p - 1) / 6
    <= calls isNotice
         (trace (snd (startWait_loop fuel client create startWaiting st))).
Proof.
  induction fuel as [|fuel IH]; intros p sw st Hp Hclock Hbusy.
  - cbn [startWait_loop]. unfold outOfFuel. cbn [snd].
    rewrite Nat.div_small by lia. lia.
  - assert (H0 : statusReply client (statusCalls st) = (StatusBusy, None)).
    { rewrite <- (Nat.add_0_r (statusCalls st)). apply Hbusy. lia. }
    cbn [startWait_loop]. unfold bind.
    rewrite (startWait_body_busy_run client create sw st H0). cbv zeta.
    pose proof (latency_nonneg (statusCalls st)) as Hlat.
    destruct (_ >? _)%Z eqn:E.
    + match goal with
      | |- context [startWait_loop fuel client create ?w ?s] =>
          assert (IH1 := IH 1 w s)
      end.
      cbn [now trace] in IH1. rewrite !calls_cons in IH1. cbn [isNotice] in IH1.
      assert ((S fuel + p - 1) / 6 <= 1 + (fuel + 1 - 1) / 6).
      { replace (1 + (fuel + 1 - 1) / 6) with ((fuel + 1 - 1 + 1 * 6) / 6)
          by (rewrite Nat.div_add by lia; lia).
        apply Nat.Div0.div_le_mono. lia. }
      etransitivity; [|apply IH1]; [lia | lia | lia |].
      intros i Hi.
      replace (statusCalls
                 (mkState
                    (now st + statusLatency client (statusCalls st)
                     + 2000000000)
                    (EvSleep 2000000000
                       :: EvLog DebugLevel "Got status Busy, expected: Running"
                       :: EvLog InfoLevel "Waiting for workspace to come up..."
                       :: EvStatus :: trace st)) + i)
        with (statusCalls st + S i) by (count; lia).
      apply Hbusy. lia.
    + assert (Hle : (now st + statusLatency client (statusCalls st) - sw
                     <= 10000000000)%Z) by lia.
      assert (p < 6) by lia.
      match goal with
      | |- context [startWait_loop fuel client create ?w ?s] =>
          assert (IH1 := IH (S p) w s)
      end.
      cbn [now trace] in IH1. rewrite !calls_cons in IH1. cbn [isNotice] in IH1.
      replace (S fuel + p - 1) with (fuel + S p - 1) by lia.
      apply IH1.
      * lia.
      * lia.
      * intros i Hi.
        replace (statusCalls
                   (mkState
                      (now st + statusLatency client (statusCalls st)
                       + 2000000000)
                      (EvSleep 2000000000 :: EvStatus :: trace st)) + i)
          with (statusCalls st + S i) by (count; lia).
        apply Hbusy. lia.
Qed.

End Cadence.

(** X4: the progress notice keeps coming.  The latency of a status query
    stands for all the time between the end of the two seconds of the
    preceding sleep and the answer, so a sleep that lasts longer than asked
    is a longer latency.  While the workspace stays busy, and however long
    the queries take, at most six queries in a row go without the notice
    "Waiting for workspace to come up...": after [k] passes of the loop at
    least [(k - 1) / 6] notices have been logged. *)
Theorem startWait_notice_at_least_every_sixth_poll
    (client : WorkspaceClient) (create : bool) (k : nat) :
  (forall i, i < k -> statusReply client i = (StatusBusy, None)) ->
  (forall i, (0 <= statusLatency client i)%Z) ->
  (k - 1) / 6
  <= calls isNotice (trace (snd (startWait k client create init))).
Proof.
  intros Hbusy Hlat. rewrite startWait_unfold.
  pose proof (startWait_loop_notices client Hlat create k 0 (now init) init)
    as H.
  cbn [trace init now calls filter length Nat.add] in H.
  rewrite Nat.add_0_r in H. apply H; [lia | cbn; lia |].
  intros i Hi. apply Hbusy. exact Hi.
Qed.

Lemma startWait_notice_at_least_every_sixth_poll_witness :
  let client :=
    {| statusReply := fun _ => (StatusBusy, None);
       statusLatency := fun _ => 1%Z;
       startReply := fun _ => None;
       createReply := fun _ => None;
       agentInfoReply := ("{}", None);
       agentPath := "/tmp/devpod";
       ideName := "none" |} in
  (forall i, i < 13 -> statusReply client i = (StatusBusy, None))
  /\ (forall i, (0 <= statusLatency client i)%Z)
  /\ (13 - 1) / 6
     <= calls isNotice (trace (snd (startWait 13 client false init))).
Proof.
  intros client.
  assert (Hb : forall i, i < 13 -> statusReply client i = (StatusBusy, None))
    by reflexivity.
  assert (Hl : forall i, (0 <= statusLatency client i)%Z) by (cbn; lia).
  split; [exact Hb|]. split; [exact Hl|].
  exact (startWait_notice_at_least_every_sixth_poll client false 13 Hb Hl).
Defined.

Section Provisioning.

Variable client : WorkspaceClient.

Lemma startWait_loop_provisions_once (create : bool) :
  forall (fuel : nat) (startWaiting : Z) (st : State),
    let st' := snd (startWait_loop fuel client create startWaiting st) in
    startCalls st' + createCalls st' <= startCalls st + createCalls st + 1
    /\ startCalls st <= startCalls st'
    /\ createCalls st <= createCalls st'.
Proof.
  induction fuel as [|fuel IH]; intros sw st; cbn [startWait_loop].
  - cbn. lia.
  - unfold bind, startWait_body, Status_, Start, Create. cbn -[statusCalls].
    destruct (statusReply client (statusCalls st)) as [status [e|]]; cbn.
    + unfold startCalls, createCalls, calls. cbn. lia.
    + destruct (status =? StatusBusy)%string.
      * unfold Since, bind; cbn.
        destruct (_ >? _)%Z; cbn;
          match goal with
          | |- context [startWait_loop fuel client create ?w ?s] =>
              specialize (IH w s); cbn zeta in IH; revert IH
          end;
          unfold startCalls, createCalls, calls; cbn; lia.
      * destruct (status =? StatusStopped)%string;
          [|destruct (status =? StatusNotFound)%string];
          destruct create; cbn;
          try match goal with
            | |- context [match ?r with Some _ => _ | None => _ end] =>
                destruct r
            end;
          cbn; unfold startCalls, createCalls, calls; cbn; lia.
Qed.

(** What a nil result of the wait without provisioning stands for. *)
Lemma startWait_loop_nil_means_ready :
  forall (fuel : nat) (startWaiting : Z) (st st' : State),
    startWait_loop fuel client false startWaiting st = (Returns None, st') ->
    exists k status,
      statusCalls st' = S k
      /\ statusCalls st <= k
      /\ statusReply client k = (status, None)
      /\ transient status = false.
Proof.
  induction fuel as [|fuel IH]; intros sw st st'; cbn [startWait_loop].
  - discriminate.
  - unfold bind, startWait_body, Status_. cbn -[statusCalls].
    destruct (statusReply client (statusCalls st)) as [status [e|]] eqn:Hr;
      cbn -[statusCalls]; [discriminate|].
    destruct (status =? StatusBusy)%string eqn:Hb.
    + unfold Since, bind; cbn -[statusCalls].
      destruct (_ >? _)%Z; cbn -[statusCalls]; intros Hrun;
        apply IH in Hrun as (k & s & Hk & Hle & Hrep & Ht);
        exists k, s; revert Hle; count; intros; repeat split; auto; lia.
    + destruct (status =? StatusStopped)%string eqn:Hst;
        [cbn; discriminate|].
      destruct (status =? StatusNotFound)%string eqn:Hnf;
        [cbn; discriminate|].
      cbn -[statusCalls]. intros [= <-].
      exists (statusCalls st), status. count. repeat split; auto.
      unfold transient. now rewrite Hb, Hst, Hnf.
Qed.

End Provisioning.

(** X5: one run of [startWait] provisions at most once.  Whatever the
    client answers and however long the loop runs, [Start()] and
    [Create()] together are called at most one more time than before the
    run (and no recorded call is lost). *)
Theorem startWait_provisions_at_most_once
    (client : WorkspaceClient) (create : bool) (fuel : nat) (st : State) :
  let st' := snd (startWait fuel client create st) in
  startCalls st' + createCalls st' <= startCalls st + createCalls st + 1
  /\ startCalls st <= startCalls st'
  /\ createCalls st <= createCalls st'.
Proof.
  rewrite startWait_unfold.
  exact (startWait_loop_provisions_once client create fuel (now st) st).
Qed.

(** X6: with provisioning off, a nil result of [startWait] means that the
    last status query of the run succeeded with a status that is neither
    Busy, Stopped nor NotFound. *)
Theorem startWait_nil_means_ready
    (client : WorkspaceClient) (fuel : nat) (st st' : State) :
  startWait fuel client false st = (Returns None, st') ->
  exists k status,
    statusCalls st' = S k
    /\ statusCalls st <= k
    /\ statusReply client k = (status, None)
    /\ transient status = false.
Proof.
  rewrite startWait_unfold. apply startWait_loop_nil_means_ready.
Qed.

Lemma startWait_nil_means_ready_witness :
  let client := scripted [StatusBusy; StatusRunning] None None in
  exists k status,
    statusCalls (mkState 2000000000 [EvStatus; EvSleep 2000000000; EvStatus])
      = S k
    /\ statusCalls init <= k
    /\ statusReply client k = (status, None)
    /\ transient status = false.
Proof.
  intros client.
  apply (startWait_nil_means_ready client 2 init
           (mkState 2000000000 [EvStatus; EvSleep 2000000000; EvStatus])).
  reflexivity.
Defined.

(** X7: a failed provisioning call ends the wait with its root cause
    intact.  When a pass finds the workspace stopped (not found),
    provisioning is on and [Start()] ([Create()]) fails with [e], the wait
    returns an error whose [errors.Cause] is that of [e], after exactly
    one more status query and one provisioning call. *)
Theorem startWait_provisioning_failure_keeps_cause
    (client : WorkspaceClient) (fuel : nat) (st : State) (status : Status)
    (e : error) :
  statusReply client (statusCalls st) = (status, None) ->
  (status = StatusStopped /\ startReply client (startCalls st) = Some e) \/
  (status = StatusNotFound /\ createReply client (createCalls st) = Some e) ->
  exists e' st',
    startWait (S fuel) client true st = (Returns (Some e'), st')
    /\ Cause e' = Cause e
    /\ statusCalls st' = S (statusCalls st)
    /\ startCalls st' + createCalls st' = startCalls st + createCalls st + 1.
Proof.
  intros Hs [[-> Hp] | [-> Hp]]; rewrite startWait_unfold;
    cbn [startWait_loop];
    unfold bind, startWait_body, Status_, Start, Create;
    cbn -[statusCalls startCalls createCalls]; rewrite Hs;
    cbn -[statusCalls startCalls createCalls];
    repeat match goal with
      | |- context [startCalls (mkState ?t (EvStatus :: trace st))] =>
          change (startCalls (mkState t (EvStatus :: trace st)))
            with (startCalls st)
      | |- context [createCalls (mkState ?t (EvStatus :: trace st))] =>
          change (createCalls (mkState t (EvStatus :: trace st)))
            with (createCalls st)
      end;
    rewrite Hp; cbn -[statusCalls startCalls createCalls];
    eexists; eexists; (split; [reflexivity|]);
    (split; [reflexivity|]); count; cbn; lia.
Qed.

Lemma startWait_provisioning_failure_keeps_cause_witness :
  let e := withMessage (errorString "quota exceeded") "create instance" in
  let client := scripted [StatusNotFound] None (Some e) in
  exists e' st',
    startWait 1 client true init = (Returns (Some e'), st')
    /\ Cause e' = errorString "quota exceeded"
    /\ statusCalls st' = 1
    /\ startCalls st' + createCalls st' = 1.
Proof.
  intros e client.
  apply (startWait_provisioning_failure_keeps_cause client 0 init StatusNotFound e);
    [reflexivity | right; split; reflexivity].
Defined.

(* ================================================================== *)
(** ** More on the credentials relay *)

(** X8: a failing [os.Pipe].  With something to forward, an error of the
    first [os.Pipe] is returned as it is and nothing else has happened; an
    error of the second one is returned as it is after the write end of
    the first pipe has been closed.  In both cases no helper is launched
    and the tunnel server is not started. *)
Theorem runCredentialsServer_pipe_failure
    (env : Env) (ctx : Context) (user : string)
    (gitCredentials dockerCredentials : bool) (st : State) (e : error) :
  gitCredentials || dockerCredentials = true ->
  (pipeReply env (calls isPipe (trace st)) = Some e ->
   runCredentialsServer env ctx user gitCredentials dockerCredentials st
   = (Returns (Some e), mkState (now st) (EvPipe :: trace st)))
  /\ (pipeReply env (calls isPipe (trace st)) = None ->
      pipeReply env (S (calls isPipe (trace st))) = Some e ->
      runCredentialsServer env ctx user gitCredentials dockerCredentials st
      = (Returns (Some e),
         mkState (now st)
           (EvClose "stdoutWriter" :: EvPipe :: EvPipe :: trace st))).
Proof.
  intros Hfw. unfold runCredentialsServer.
  replace (negb gitCredentials && negb dockerCredentials) with false
    by (destruct gitCredentials, dockerCredentials; cbn in *; congruence).
  unfold bind, defer, Pipe, emit, ret. split.
  - intros H1. cbn -[calls]. rewrite H1. reflexivity.
  - intros H1 H2. cbn -[calls]. rewrite H1. cbn -[calls].
    rewrite calls_cons. cbn -[calls]. rewrite H2. reflexivity.
Qed.

Lemma runCredentialsServer_pipe_failure_witness :
  let e := errorString "too many open files" in
  let env := sampleEnv (fun k => if (k =? 1)%nat then Some e else None) None in
  runCredentialsServer env {| cancelled := false |} "dev" true true init
  = (Returns (Some e),
     mkState 0 [EvClose "stdoutWriter"; EvPipe; EvPipe]).
Proof.
  intros e env.
  apply (runCredentialsServer_pipe_failure
           env {| cancelled := false |} "dev" true true init e eq_refl);
    reflexivity.
Defined.



(** X10: the relay handler outlives the relay.  As long as the context it
    is given is not done, the handler does not return, whether
    [runCredentialsServer] succeeded, failed or is still running. *)
Theorem relay_handler_waits_for_context
    (env : Env) (cmd : SSHCmd) (client : WorkspaceClient) (h : Handler)
    (ctx : Context) (st : State) (r : option error) :
  runInContainer env cmd client = Some h ->
  cancelled ctx = false ->
  fst (h ctx st) <> Returns r.
Proof.
  intros Hh Hctx. rewrite (relay_handler_run env cmd client h ctx st Hh).
  rewrite Hctx.
  destruct (runCredentialsServer _ _ _ _ _ st) as [[[e|]| |] s1];
    cbn; discriminate.
Qed.

Lemma relay_handler_waits_for_context_witness :
  let env := sampleEnv (fun _ => None) None in
  let client := scripted [StatusRunning] None None in
  exists h,
    runInContainer env (sampleCmd "dev") client = Some h
    /\ fst (h {| cancelled := false |} init) <> Returns None.
Proof.
  intros env client. eexists. split; [reflexivity|].
  apply (relay_handler_waits_for_context
           env (sampleCmd "dev") client _ {| cancelled := false |} init None);
    reflexivity.
Defined.

(* ================================================================== *)
(** ** More on [jumpContainer], [Run] and the outer command *)

(** X11: what [jumpContainer] does once the wait has succeeded.  It asks
    for the token, then for the agent info, then runs the container
    tunnel; an error of the token or of the agent info is returned as it
    is and the tunnel is not run.  The tunnel is given a relay handler
    exactly when the [--user] flag is not empty, and its result is the
    result of [jumpContainer]. *)
Theorem jumpContainer_after_wait
    (fuel : nat) (env : Env) (cmd : SSHCmd) (ctx : Context)
    (client : WorkspaceClient) (st st1 : State) :
  startWait fuel client false st = (Returns None, st1) ->
  let run := jumpContainer fuel env cmd ctx client st in
  let asked := EvGetToken :: trace st1 in
  match tokenReply env, agentInfoReply client with
  | (_, Some e), _ => run = (Returns (Some e), mkState (now st1) asked)
  | (_, None), (_, Some e) =>
      run = (Returns (Some e), mkState (now st1) (EvAgentInfo :: asked))
  | (tok, None), (workspaceInfo, None) =>
      run = containerTunnelRun env ctx
              (outerHandler env cmd client tok workspaceInfo)
              (runInContainer env cmd client)
              (mkState (now st1)
                 (EvTunnelRun (negb (User cmd =? "")%string)
                    :: EvAgentInfo :: asked))
  end.
Proof.
  intros Hwait run asked. subst run asked.
  unfold jumpContainer, bind. rewrite Hwait.
  unfold GetDevPodToken, AgentInfo, ContainerTunnel_Run, bind, emit, ret.
  cbn -[startWait outerHandler runInContainer].
  destruct (tokenReply env) as [tok [e|]]; [reflexivity|].
  cbn -[startWait outerHandler runInContainer].
  destruct (agentInfoReply client) as [info [e|]]; [reflexivity|].
  cbn -[startWait outerHandler]. unfold runInContainer.
  destruct (negb (User cmd =? "")%string); reflexivity.
Qed.

Lemma jumpContainer_after_wait_witness :
  let env :=
    {| ContainerDevPodHelperLocation := "/usr/local/bin/devpod";
       IDEVSCode := "vscode";
       tokenReply := ("", Some (errorString "no token"));
       pipeReply := fun _ => None;
       sshRunReply := fun _ => Returns None;
       tunnelServerReply := fun _ _ => Returns None;
       privateKeyReply := ("key", None);
       startSSHSession := fun _ _ _ exec => exec;
       containerTunnelRun := sequentialTunnel;
       configureSSHConfigReply := fun _ => None |} in
  let client := scripted [StatusBusy; StatusRunning] None None in
  jumpContainer 2 env (sampleCmd "dev") {| cancelled := true |} client init
  = (Returns (Some (errorString "no token")),
     mkState 2000000000
       [EvGetToken; EvStatus; EvSleep 2000000000; EvStatus]).
Proof.
  intros env client.
  exact (jumpContainer_after_wait
           2 env (sampleCmd "dev") {| cancelled := true |} client init
           (mkState 2000000000 [EvStatus; EvSleep 2000000000; EvStatus])
           eq_refl).
Defined.

(** X12: the handler of the session.  In stdio mode it runs the tunnel
    command over the connection and never asks for the private key; its
    result is that of [devssh.Run].  Otherwise it first reads the private
    key, and a failure to read it is returned before any command is run.
    Either way the log writer is closed when the handler returns. *)
Theorem outerHandler_modes
    (env : Env) (cmd : SSHCmd) (client : WorkspaceClient)
    (tok workspaceInfo : string) (ctx : Context) (st : State) :
  let command :=
    outerTunnelCommand (agentPath client) tok workspaceInfo
                       (Debug cmd) (User cmd) in
  let started :=
    EvLog DebugLevel "Run outer container tunnel" :: trace st in
  (forall r,
     Stdio cmd = true ->
     sshRunReply env command = Returns r ->
     outerHandler env cmd client tok workspaceInfo ctx st
     = (Returns r,
        mkState (now st) (EvClose "writer" :: EvSSHRun command :: started)))
  /\ (forall e,
        Stdio cmd = false ->
        snd (privateKeyReply env) = Some e ->
        outerHandler env cmd client tok workspaceInfo ctx st
        = (Returns (Some e),
           mkState (now st) (EvClose "writer" :: EvGetPrivateKey :: started))).
Proof.
  intros command started. subst started. split.
  - intros r Hstdio Hrun. unfold outerHandler. rewrite Hstdio.
    unfold defer, bind, Debugf, Logf, devssh_Run, emit, await.
    cbn -[outerTunnelCommand]. fold command. rewrite Hrun. reflexivity.
  - intros e Hstdio Hkey. unfold outerHandler. rewrite Hstdio.
    unfold defer, bind, Debugf, Logf, GetDevPodPrivateKeyRaw, emit, ret.
    cbn -[outerTunnelCommand].
    destruct (privateKeyReply env) as [key err]. cbn in Hkey. subst err.
    reflexivity.
Qed.

Lemma outerHandler_modes_witness :
  let env := sampleEnv (fun _ => None) None in
  let client := scripted [StatusRunning] None None in
  outerHandler env (sampleCmd "") client "tok" "{}" {| cancelled := false |} init
  = (Returns None,
     mkState 0
       [EvClose "writer";
        EvSSHRun "/tmp/devpod agent container-tunnel --start-container --track-activity --token 'tok' --workspace-info '{}'";
        EvLog DebugLevel "Run outer container tunnel"]).
Proof.
  intros env client.
  exact (proj1 (outerHandler_modes env (sampleCmd "") client "tok" "{}"
                  {| cancelled := false |} init)
               None eq_refl eq_refl).
Defined.

(** X13: [--configure] replaces the session.  With the flag set, [Run]
    only calls [ConfigureSSHConfig], always for the user "root" whatever
    [--user] says, and returns its result: the workspace status is not
    queried and no tunnel is run. *)
Theorem Run_configure_only
    (fuel : nat) (env : Env) (cmd : SSHCmd) (ctx : Context)
    (client : WorkspaceClient) (st : State) :
  Configure cmd = true ->
  Run fuel env cmd ctx client st
  = (Returns (configureSSHConfigReply env "root"),
     mkState (now st) (EvConfigureSSH "root" :: trace st)).
Proof.
  intros H. unfold Run, configureSSH, bind, emit. rewrite H. cbn.
  destruct (configureSSHConfigReply env "root"); reflexivity.
Qed.

Lemma Run_configure_only_witness :
  let cmd :=
    {| Debug := false; Stdio := false; JumpContainer := false;
       Configure := true; Command := ""; User := "dev" |} in
  Run 0 (sampleEnv (fun _ => None) None) cmd {| cancelled := false |}
      (scripted [StatusStopped] None None) init
  = (Returns None, mkState 0 [EvConfigureSSH "root"]).
Proof.
  intros cmd.
  exact (Run_configure_only 0 (sampleEnv (fun _ => None) None) cmd
           {| cancelled := false |} (scripted [StatusStopped] None None)
           init eq_refl).
Defined.

(** The formatted head of the outer command. *)
Lemma outerTunnelCommand_head (agentPath tok workspaceInfo : string) :
  Sprintf "%s agent container-tunnel --start-container --track-activity --token '%s' --workspace-info '%s'"
          [ArgString agentPath; ArgString tok; ArgString workspaceInfo]
  = agentPath
      ++ " agent container-tunnel --start-container --track-activity --token '"
      ++ tok ++ "' --workspace-info '" ++ workspaceInfo ++ "'".
Proof. reflexivity. Qed.

(** X14: the outer command splices its operands in without escaping, so
    it does not determine them: a token that ends with the text
    "' --workspace-info '<y>" followed by workspace info [z] gives the very
    command of the shorter token with workspace info
    "<y>' --workspace-info '<z>". *)
Theorem outerTunnelCommand_not_escaped
    (agentPath x y z : string) (debug : bool) (user : string) :
  outerTunnelCommand agentPath (x ++ "' --workspace-info '" ++ y) z debug user
  = outerTunnelCommand agentPath x (y ++ "' --workspace-info '" ++ z) debug user.
Proof.
  unfold outerTunnelCommand. rewrite !outerTunnelCommand_head.
  rewrite !append_assoc. reflexivity.
Qed.
